(** * The viewer's configuration validator

    A shallow embedding of [validateConfig] (the type guard that decides
    whether an untyped value may be used as the viewer's [Config]) and the
    properties its specification states about it.

    The function is written in TypeScript and takes [config: any], so its
    behaviour is that of the underlying JavaScript: [typeof], truthiness,
    property reads that throw on [null], strict comparison, IEEE-754 numbers.
    The first module models that fragment of the language; the second is the
    validator, check for check; the rest are the theorems. *)

From Stdlib Require Import PrimFloat ZArith.
From Stdlib Require FloatAxioms SpecFloat FloatOps.
From stdpp Require Import gmap strings.

(** ** The fragment of JavaScript the validator is written in *)

Module JS.

(** Objects live in a heap and are handled through references, so that two
    reads of one property see the same store and a write would be visible
    to every holder of the reference. *)
Definition loc := positive.

(** The language's values. Numbers are binary64 floats, as in the
    language; a reference carries whether its object is callable, which is
    all that [typeof] asks of it. Of a string the validator asks only
    whether it is empty and whether it is 15 characters in ['0'..'9']; the
    rest is for the URL predicates. *)
Inductive value : Type :=
  | VUndefined
  | VNull
  | VBool (b : bool)
  | VNumber (x : float)
  | VBigInt (z : Z)
  | VString (s : string)
  | VSymbol (id : positive)
  | VObject (l : loc)
  | VFunction (l : loc).

(** An object is the finite map of the data properties visible through it
    (own or inherited). Arrays are objects whose keys are indices and
    ["length"]. Accessor properties and proxies, whose reads run code, are
    outside the model. *)
Abbreviation object := (gmap string value).

(** What a run can observe or change: the heap and the console. *)
Record world : Type := World {
  heap : gmap loc (gmap string value);
  console : list (list value)
}.

Inductive error : Type := TypeError.

(** How the evaluation of an expression or a call ends. [Unmodelled] marks
    the operations of the language this fragment leaves out (coercions of
    non-numbers in [<], property reads on primitives, ...); the validator
    is proved never to reach one on an allocated input. *)
Inductive outcome (A : Type) : Type :=
  | Normal (a : A)
  | Throw (e : error)
  | Unmodelled.
Arguments Normal {A} a.
Arguments Throw {A} e.
Arguments Unmodelled {A}.

(** Computations: state passing over the world, with abrupt completion. *)
Definition js (A : Type) : Type := world -> outcome A * world.

Definition ret {A} (a : A) : js A := fun w => (Normal a, w).

Definition bind {A B} (m : js A) (f : A -> js B) : js B := fun w =>
  match m w with
  | (Normal a, w') => f a w'
  | (Throw e, w') => (Throw e, w')
  | (Unmodelled, w') => (Unmodelled, w')
  end.

Definition fmap {A B} (f : A -> B) (m : js A) : js B :=
  bind m (fun a => ret (f a)).

(** [typeof v] *)
Definition typeof (v : value) : string :=
  match v with
  | VUndefined => "undefined"
  | VNull => "object"
  | VBool _ => "boolean"
  | VNumber _ => "number"
  | VBigInt _ => "bigint"
  | VString _ => "string"
  | VSymbol _ => "symbol"
  | VObject _ => "object"
  | VFunction _ => "function"
  end.

(** ToBoolean: [undefined], [null], [false], [+0], [-0], [NaN], [0n] and
    the empty string are falsy, everything else is truthy. *)
Definition toBoolean (v : value) : bool :=
  match v with
  | VUndefined | VNull => false
  | VBool b => b
  | VNumber x => negb (PrimFloat.eqb x 0) && PrimFloat.eqb x x
  | VBigInt z => negb (Z.eqb z 0)
  | VString s => negb (String.eqb s "")
  | VSymbol _ | VObject _ | VFunction _ => true
  end.

(** The value of a property of an object: [undefined] when it has none. *)
Definition field (o : gmap string value) (name : string) : value :=
  default VUndefined (o !! name).

(** [v.name]. Reading a property of [undefined] or [null] throws a
    TypeError; reading one of an object looks it up in the heap. *)
Definition getProp (v : value) (name : string) : js value := fun w =>
  match v with
  | VUndefined | VNull => (Throw TypeError, w)
  | VObject l | VFunction l =>
      match heap w !! l with
      | Some o => (Normal (field o name), w)
      | None => (Unmodelled, w)
      end
  | _ => (Unmodelled, w)
  end.

(** [v.name = x], the language's write; the validator never uses it. *)
Definition setProp (v : value) (name : string) (x : value) : js value := fun w =>
  match v with
  | VUndefined | VNull => (Throw TypeError, w)
  | VObject l | VFunction l =>
      match heap w !! l with
      | Some o => (Normal x, World (<[l := <[name := x]> o]> (heap w)) (console w))
      | None => (Unmodelled, w)
      end
  | _ => (Unmodelled, w)
  end.

(** [console.log(...args)]; the validator never uses it either. *)
Definition consoleLog (args : list value) : js value := fun w =>
  (Normal VUndefined, World (heap w) (console w ++ [args])).

(** An expression used as a condition: ToBoolean of its value. *)
Definition truthy (e : js value) : js bool := fmap toBoolean e.

(** [typeof e] *)
Definition typeOf (e : js value) : js string := fmap typeof e.

(** [a !== 'lit'], both sides strings. *)
Definition strictNe (a : js string) (lit : string) : js bool :=
  fmap (fun s => negb (String.eqb s lit)) a.

(** [!c] *)
Definition notC (c : js bool) : js bool := fmap negb c.

(** [a && b] and [a || b] as conditions: the right operand is evaluated
    only when the left one does not decide. *)
Definition andC (a b : js bool) : js bool :=
  bind a (fun x => if x then b else ret false).

Definition orC (a b : js bool) : js bool :=
  bind a (fun x => if x then ret true else b).

(** [e < c] and [e > c] for a literal number [c], on numbers: IEEE
    comparison (false when [e] is NaN). The coercion of other operands to
    a number is not modelled. *)
Definition ltC (e : js value) (c : float) : js bool :=
  bind e (fun v => match v with
                   | VNumber x => ret (PrimFloat.ltb x c)
                   | _ => fun w => (Unmodelled, w)
                   end).

Definition gtC (e : js value) (c : float) : js bool :=
  bind e (fun v => match v with
                   | VNumber x => ret (PrimFloat.ltb c x)
                   | _ => fun w => (Unmodelled, w)
                   end).

(** A call [p(e)] of an imported predicate. *)
Definition call (p : value -> bool) (e : js value) : js bool := fmap p e.

(** [e.match(re)] used as a condition, for a regular expression without
    flags given by the strings it matches: a string receiver yields the
    match array (truthy) or [null]. The other primitives have no [match]
    method, so the call throws; what an object would answer depends on its
    own [match] property and is not modelled. *)
Definition matches (e : js value) (re : string -> bool) : js bool :=
  bind e (fun v => match v with
                   | VString s => ret (re s)
                   | VObject _ | VFunction _ => fun w => (Unmodelled, w)
                   | _ => fun w => (Throw TypeError, w)
                   end).

(** [if (c) return r; rest] *)
Definition ifReturn {A} (c : js bool) (r : A) (rest : js A) : js A :=
  bind c (fun b => if b then ret r else rest).

(** [\d]: an ASCII decimal digit. *)
Definition isDigit (c : Ascii.ascii) : bool :=
  let n := Ascii.nat_of_ascii c in (48 <=? n)%nat && (n <=? 57)%nat.

(** [^\d{n}$]: the whole string is [n] digits. Without the [m] flag [^]
    and [$] match only at the two ends of the input. *)
Fixpoint digitsExactly (n : nat) (s : string) : bool :=
  match n, s with
  | O, EmptyString => true
  | S n', String c s' => isDigit c && digitsExactly n' s'
  | _, _ => false
  end.

End JS.

Import JS.

Declare Scope js_scope.
Delimit Scope js_scope with js.
Notation "v .[ name ]" := (getProp v name)
  (at level 1, left associativity, format "v .[ name ]") : js_scope.
Notation "'NOT' c" := (notC c) (at level 35, right associativity) : js_scope.
Notation "a 'AND' b" := (andC a b) (at level 40, left associativity) : js_scope.
Notation "a 'OR' b" := (orC a b) (at level 50, left associativity) : js_scope.
Notation "a !== s" := (strictNe a s) (at level 30, no associativity) : js_scope.
Notation "e 'LT' c" := (ltC e c) (at level 30, no associativity) : js_scope.
Notation "e 'GT' c" := (gtC e c) (at level 30, no associativity) : js_scope.
Notation "'If' c 'Return' r ;; rest" := (ifReturn c r rest)
  (at level 10, c at level 99, r at level 9, rest at level 200,
   format "'[v' 'If'  c  'Return'  r  ;; '/' rest ']'") : js_scope.

(** ** The validator *)

(** The two URL predicates are imported from the viewer's [util] module,
    which is not part of the validator. They are taken as they are
    specified: total boolean predicates of their argument, without
    effects. *)
Class Util : Type := {
  isValidURL : value -> bool;
  isValidURLWithPlaceholder : value -> bool
}.

Section Validator.

Context {util : Util}.

(** The pattern of an RTV pin, [/^\d{15}$/]. *)
Definition rtvPinPattern : string -> bool := digitsExactly 15.

Open Scope js_scope.

Definition validateConfig (config : value) : js bool :=
  If typeOf (ret config) !== "object" Return false ;;
  If NOT (call isValidURL config.["relayPageURL"]) Return false ;;
  If typeOf config.["useOpaqueOrigin"] !== "boolean" Return false ;;
  If truthy config.["imageProxyURL"] AND
     NOT (call isValidURLWithPlaceholder config.["imageProxyURL"])
  Return false ;;
  If truthy config.["xhrProxyURL"] AND
     NOT (call isValidURL config.["xhrProxyURL"])
  Return false ;;
  If NOT (truthy config.["xhrProxyURL"]) AND truthy config.["templateProxyURL"]
  Return false ;;
  If truthy config.["templateProxyURL"] AND
     NOT (call isValidURL config.["templateProxyURL"])
  Return false ;;
  If NOT (truthy config.["templateProxyURL"]) AND
     truthy config.["processTemplateProxyOutput"]
  Return false ;;
  If truthy config.["linkRedirectURL"] AND
     NOT (call isValidURLWithPlaceholder config.["linkRedirectURL"])
  Return false ;;
  If truthy config.["rtvPin"] AND
     (typeOf config.["rtvPin"] !== "string" OR
      NOT (matches config.["rtvPin"] rtvPinPattern))
  Return false ;;
  If truthy config.["runtimeCDN"] AND
     NOT (call isValidURL config.["runtimeCDN"])
  Return false ;;
  If truthy config.["failOnLoadErrorAfter"] AND
     (typeOf config.["failOnLoadErrorAfter"] !== "number" OR
      config.["failOnLoadErrorAfter"] LT 0 OR
      config.["failOnLoadErrorAfter"] GT 10000)
  Return false ;;
  If truthy config.["loadTimeout"] AND
     (typeOf config.["loadTimeout"] !== "number" OR
      config.["loadTimeout"] LT 0 OR
      config.["loadTimeout"] GT 10000)
  Return false ;;
  If truthy config.["rtvPin"] AND truthy config.["runtimeCDN"]
  Return false ;;
  If truthy config.["maximumAMPSize"] AND
     (typeOf config.["maximumAMPSize"] !== "number" OR
      config.["maximumAMPSize"] LT 0)
  Return false ;;
  ret true.

(** *** The checks, read off as conditions on the object's fields

    Each entry is the condition of one [if] of [validateConfig], in the
    order of the source, as a function of the fields of the object that
    [config] refers to. [validateConfig_object] below proves that the
    validator returns [false] exactly when one of them holds. *)

(** [v && (typeof v !== 'number' || bad(v))] *)
Definition badNumber (bad : float -> bool) (v : value) : bool :=
  toBoolean v && match v with VNumber x => bad x | _ => true end.

(** [v && (typeof v !== 'string' || !v.match(re))] *)
Definition badString (re : string -> bool) (v : value) : bool :=
  toBoolean v && match v with VString s => negb (re s) | _ => true end.

Definition outsideTimeout (x : float) : bool :=
  PrimFloat.ltb x 0 || PrimFloat.ltb 10000 x.

Definition negative (x : float) : bool := PrimFloat.ltb x 0.

Definition violations (o : gmap string value) : list bool :=
  [ negb (isValidURL (field o "relayPageURL"));
    negb (String.eqb (typeof (field o "useOpaqueOrigin")) "boolean");
    toBoolean (field o "imageProxyURL") &&
      negb (isValidURLWithPlaceholder (field o "imageProxyURL"));
    toBoolean (field o "xhrProxyURL") && negb (isValidURL (field o "xhrProxyURL"));
    negb (toBoolean (field o "xhrProxyURL")) && toBoolean (field o "templateProxyURL");
    toBoolean (field o "templateProxyURL") &&
      negb (isValidURL (field o "templateProxyURL"));
    negb (toBoolean (field o "templateProxyURL")) &&
      toBoolean (field o "processTemplateProxyOutput");
    toBoolean (field o "linkRedirectURL") &&
      negb (isValidURLWithPlaceholder (field o "linkRedirectURL"));
    badString rtvPinPattern (field o "rtvPin");
    toBoolean (field o "runtimeCDN") && negb (isValidURL (field o "runtimeCDN"));
    badNumber outsideTimeout (field o "failOnLoadErrorAfter");
    badNumber outsideTimeout (field o "loadTimeout");
    toBoolean (field o "rtvPin") && toBoolean (field o "runtimeCDN");
    badNumber negative (field o "maximumAMPSize") ].

Definition accepts (o : gmap string value) : bool :=
  forallb negb (violations o).

(** *** Verdicts on objects

    [accepted o]: wherever the object [o] is stored, the validator returns
    [true] on a reference to it; [rejected o]: it returns [false]. Both
    include that the run ends normally and leaves the world as it was. *)
Definition accepted (o : gmap string value) : Prop :=
  forall (w : world) (l : loc),
    heap w !! l = Some o -> validateConfig (VObject l) w = (Normal true, w).

Definition rejected (o : gmap string value) : Prop :=
  forall (w : world) (l : loc),
    heap w !! l = Some o -> validateConfig (VObject l) w = (Normal false, w).

End Validator.

(** ** Vocabulary of the statements *)

(** A computation ends normally with [a] and leaves the world as it was. *)
Definition evalsTo {A} (m : js A) (w : world) (a : A) : Prop :=
  m w = (Normal a, w).

(** A computation never changes the world, however it ends. *)
Definition readonly {A} (m : js A) : Prop :=
  forall w : world, (m w).2 = w.

(** The specification's wording of the pin format: a string of exactly 15
    ASCII decimal digits. *)
Definition fifteenDigits (v : value) : bool :=
  match v with
  | VString s =>
      Nat.eqb (String.length s) 15 && forallb isDigit (String.list_ascii_of_string s)
  | _ => false
  end.

(** Two objects that differ at most in the property [name]. *)
Definition sameExcept (name : string) (o1 o2 : gmap string value) : Prop :=
  forall k : string, k <> name -> o1 !! k = o2 !! k.

(** Two objects on which the validator ends the same way, wherever each is
    stored. *)
Definition sameVerdict {util : Util} (o1 o2 : gmap string value) : Prop :=
  forall (w1 w2 : world) (l1 l2 : loc),
    heap w1 !! l1 = Some o1 -> heap w2 !! l2 = Some o2 ->
    (validateConfig (VObject l1) w1).1 = (validateConfig (VObject l2) w2).1.

(** The three numeric fields whose check is skipped for a falsy value. *)
Definition gatedNumbers : list string :=
  ["failOnLoadErrorAfter"; "loadTimeout"; "maximumAMPSize"].

(** A stand-in for the two imported predicates where a statement is applied
    to a concrete configuration: the strings that start with [https://]. *)
Definition httpsURL (v : value) : bool :=
  match v with
  | VString s => String.prefix "https://" s
  | _ => false
  end.

Definition httpsUtil : Util :=
  {| isValidURL := httpsURL; isValidURLWithPlaceholder := httpsURL |}.

(** The minimal configuration of the specification. *)
Definition minimalConfig : gmap string value :=
  <["relayPageURL" := VString "https://example.com/relay"]>
    (<["useOpaqueOrigin" := VBool true]> ∅).

(** A world with one object, the minimal configuration, at location 1. *)
Definition minimalWorld : world := World {[ 1%positive := minimalConfig ]} [].

(** The same configuration at location 1 among other things: a second
    object in the heap and a line on the console. *)
Definition busyWorld : world :=
  World (<[ 2%positive := <["length" := VNumber 0]> ∅ ]> {[ 1%positive := minimalConfig ]})
        [[VString "viewer started"]].

(** *** Vocabulary of the further properties *)

(** The properties of the candidate that the validator reads. *)
Definition readKeys : list string :=
  ["relayPageURL"; "useOpaqueOrigin"; "imageProxyURL"; "xhrProxyURL";
   "templateProxyURL"; "processTemplateProxyOutput"; "linkRedirectURL";
   "rtvPin"; "runtimeCDN"; "failOnLoadErrorAfter"; "loadTimeout";
   "maximumAMPSize"].

(** The properties whose every use is behind a truthiness test. *)
Definition gatedKeys : list string :=
  ["imageProxyURL"; "xhrProxyURL"; "templateProxyURL";
   "processTemplateProxyOutput"; "linkRedirectURL"; "rtvPin"; "runtimeCDN";
   "failOnLoadErrorAfter"; "loadTimeout"; "maximumAMPSize"].

(** The two properties checked with [isValidURLWithPlaceholder]. *)
Definition placeholderKeys : list string := ["imageProxyURL"; "linkRedirectURL"].

(** The two properties checked against the range 0..10000. *)
Definition timeoutKeys : list string := ["failOnLoadErrorAfter"; "loadTimeout"].

(** The properties no other property's check asks for. *)
Definition droppableKeys : list string :=
  ["imageProxyURL"; "processTemplateProxyOutput"; "linkRedirectURL"; "rtvPin";
   "runtimeCDN"; "failOnLoadErrorAfter"; "loadTimeout"; "maximumAMPSize"].

(** Two objects in which each property of [keys] has the same value, an
    absent property counting as [undefined]. *)
Definition sameOn (keys : list string) (o1 o2 : gmap string value) : Prop :=
  forall k : string, In k keys -> field o1 k = field o2 k.

(** A configuration that sets every property of [Config] but [runtimeCDN];
    its list of modules to skip is the array at location 2. *)
Definition fullConfig : gmap string value :=
  <["imageProxyURL" := VString "https://example.com/image?url=%s"]>
  (<["xhrProxyURL" := VString "https://example.com/xhr"]>
  (<["templateProxyURL" := VString "https://example.com/tpl"]>
  (<["transformTemplateProxyOutput" := VBool true]>
  (<["processTemplateProxyOutput" := VBool true]>
  (<["linkRedirectURL" := VString "https://example.com/redirect?url=%s"]>
  (<["failOnLoadErrorAfter" := VNumber 500]>
  (<["loadTimeout" := VNumber 3000]>
  (<["rtvPin" := VString "123456789012345"]>
  (<["skipPreprocessingModules" := VObject 2%positive]>
  (<["maximumAMPSize" := VNumber 200000]>
  (<["strictCSSSanitization" := VBool true]>
  (<["developmentMode" := VBool false]> minimalConfig)))))))))))).

(** ** How conditions evaluate *)

Lemma evalsTo_ret {A} (a : A) (w : world) : evalsTo (ret a) w a.
Proof. reflexivity. Qed.

Lemma evalsTo_getProp (w : world) (l : loc) (o : gmap string value) (k : string) :
  heap w !! l = Some o -> evalsTo (getProp (VObject l) k) w (field o k).
Proof. intros H. unfold evalsTo, getProp. by rewrite H. Qed.

Lemma evalsTo_fmap {A B} (f : A -> B) (m : js A) (w : world) (a : A) :
  evalsTo m w a -> evalsTo (fmap f m) w (f a).
Proof. unfold evalsTo, fmap, bind, ret. by intros ->. Qed.

Lemma evalsTo_andC (a b : js bool) (w : world) (x y : bool) :
  evalsTo a w x -> (x = true -> evalsTo b w y) -> evalsTo (andC a b) w (x && y).
Proof.
  unfold evalsTo, andC, bind, ret. intros -> Hb.
  destruct x; [by apply Hb | done].
Qed.

Lemma evalsTo_orC (a b : js bool) (w : world) (x y : bool) :
  evalsTo a w x -> (x = false -> evalsTo b w y) -> evalsTo (orC a b) w (x || y).
Proof.
  unfold evalsTo, orC, bind, ret. intros -> Hb.
  destruct x; [done | by apply Hb].
Qed.

Lemma evalsTo_ltC (e : js value) (w : world) (x c : float) :
  evalsTo e w (VNumber x) -> evalsTo (ltC e c) w (PrimFloat.ltb x c).
Proof. unfold evalsTo, ltC, bind, ret. by intros ->. Qed.

Lemma evalsTo_gtC (e : js value) (w : world) (x c : float) :
  evalsTo e w (VNumber x) -> evalsTo (gtC e c) w (PrimFloat.ltb c x).
Proof. unfold evalsTo, gtC, bind, ret. by intros ->. Qed.

Lemma evalsTo_matches (e : js value) (w : world) (s : string) (re : string -> bool) :
  evalsTo e w (VString s) -> evalsTo (matches e re) w (re s).
Proof. unfold evalsTo, matches, bind, ret. by intros ->. Qed.

Lemma typeof_number (v : value) :
  String.eqb (typeof v) "number" = true -> exists x, v = VNumber x.
Proof. destruct v; cbn; try discriminate. eauto. Qed.

Lemma typeof_string (v : value) :
  String.eqb (typeof v) "string" = true -> exists s, v = VString s.
Proof. destruct v; cbn; try discriminate. eauto. Qed.

(** The three guarded checks of the source, as wholes. *)
Lemma evalsTo_timeout_check (e : js value) (w : world) (v : value) :
  evalsTo e w v ->
  evalsTo (truthy e AND (typeOf e !== "number" OR e LT 0 OR e GT 10000))%js w
          (badNumber outsideTimeout v).
Proof.
  intros He. unfold badNumber. apply evalsTo_andC.
  { by apply evalsTo_fmap. }
  intros _.
  destruct (String.eqb (typeof v) "number") eqn:Hty.
  - apply typeof_number in Hty as [x ->].
    change (outsideTimeout x) with (false || PrimFloat.ltb x 0 || PrimFloat.ltb 10000 x).
    apply evalsTo_orC; [apply evalsTo_orC |].
    + by apply (evalsTo_fmap typeof),
                (evalsTo_fmap (fun s => negb (String.eqb s "number"))) in He.
    + intros _. by apply evalsTo_ltC.
    + intros _. by apply evalsTo_gtC.
  - replace (match v with VNumber x => outsideTimeout x | _ => true end)
      with (negb (String.eqb (typeof v) "number") || false || false)
      by (rewrite Hty; by destruct v).
    apply evalsTo_orC; [apply evalsTo_orC |]; try (rewrite Hty; discriminate).
    by apply (evalsTo_fmap typeof),
             (evalsTo_fmap (fun s => negb (String.eqb s "number"))) in He.
Qed.

Lemma evalsTo_size_check (e : js value) (w : world) (v : value) :
  evalsTo e w v ->
  evalsTo (truthy e AND (typeOf e !== "number" OR e LT 0))%js w
          (badNumber negative v).
Proof.
  intros He. unfold badNumber. apply evalsTo_andC.
  { by apply evalsTo_fmap. }
  intros _.
  destruct (String.eqb (typeof v) "number") eqn:Hty.
  - apply typeof_number in Hty as [x ->].
    change (negative x) with (false || PrimFloat.ltb x 0).
    apply evalsTo_orC.
    + by apply (evalsTo_fmap typeof),
                (evalsTo_fmap (fun s => negb (String.eqb s "number"))) in He.
    + intros _. by apply evalsTo_ltC.
  - replace (match v with VNumber x => negative x | _ => true end)
      with (negb (String.eqb (typeof v) "number") || false)
      by (rewrite Hty; by destruct v).
    apply evalsTo_orC; try (rewrite Hty; discriminate).
    by apply (evalsTo_fmap typeof),
             (evalsTo_fmap (fun s => negb (String.eqb s "number"))) in He.
Qed.

Lemma evalsTo_pin_check (e : js value) (w : world) (v : value) (re : string -> bool) :
  evalsTo e w v ->
  evalsTo (truthy e AND (typeOf e !== "string" OR NOT (matches e re)))%js w
          (badString re v).
Proof.
  intros He. unfold badString. apply evalsTo_andC.
  { by apply evalsTo_fmap. }
  intros _.
  destruct (String.eqb (typeof v) "string") eqn:Hty.
  - apply typeof_string in Hty as [s ->].
    change (negb (re s)) with (false || negb (re s)).
    apply evalsTo_orC.
    + by apply (evalsTo_fmap typeof),
                (evalsTo_fmap (fun s => negb (String.eqb s "string"))) in He.
    + intros _. by apply evalsTo_fmap, evalsTo_matches.
  - replace (match v with VString s => negb (re s) | _ => true end)
      with (negb (String.eqb (typeof v) "string") || false)
      by (rewrite Hty; by destruct v).
    apply evalsTo_orC; try (rewrite Hty; discriminate).
    by apply (evalsTo_fmap typeof),
             (evalsTo_fmap (fun s => negb (String.eqb s "string"))) in He.
Qed.

(** [if (c) return r; rest], once the condition is known. *)
Lemma ifReturn_evalsTo {A} (c : js bool) (r : A) (rest : js A) (w : world) (b : bool) :
  evalsTo c w b -> ifReturn c r rest w = if b then (Normal r, w) else rest w.
Proof. unfold evalsTo, ifReturn, bind, ret. intros ->. by destruct b. Qed.

(** ** What the validator computes *)

(** Evaluates a condition of the validator whose property reads are given
    by [Hget]. *)
Ltac eval_condition Hget :=
  repeat first
    [ apply evalsTo_timeout_check
    | apply evalsTo_size_check
    | apply evalsTo_pin_check
    | apply evalsTo_andC
    | apply evalsTo_fmap
    | apply evalsTo_ret
    | apply Hget
    | intros _ ].

(** Settles [accepts] from the conditions decided so far. *)
Ltac decide_accepts :=
  unfold accepts, violations; cbn [forallb];
  repeat match goal with
         | H : _ = true |- _ => rewrite H
         | H : _ = false |- _ => rewrite H
         end;
  reflexivity.

(** One [if (c) return false;] of the validator. *)
Ltac check_step Hget :=
  erewrite ifReturn_evalsTo; [ | eval_condition Hget ]; cbv beta;
  match goal with |- (if ?b then _ else _) = _ => destruct b eqn:? end;
  [ f_equal; f_equal; symmetry; decide_accepts | ].

Section Verdict.

Context {util : Util}.

(** On a reference to an object the validator runs all its checks without
    throwing and without touching the world, and its result is the
    conjunction of the checks. *)
Lemma validateConfig_object (w : world) (l : loc) (o : gmap string value) :
  heap w !! l = Some o ->
  validateConfig (VObject l) w = (Normal (accepts o), w).
Proof.
  intros Ho. unfold validateConfig.
  pose proof (fun k => evalsTo_getProp w l o k Ho) as Hget.
  rewrite (ifReturn_evalsTo _ _ _ w false) by done.
  do 14 check_step Hget.
  unfold ret. f_equal. f_equal. symmetry. decide_accepts.
Qed.

(** The three inputs that are not references to an allocated object. *)
Lemma validateConfig_non_object (v : value) (w : world) :
  typeof v <> "object" -> validateConfig v w = (Normal false, w).
Proof. destruct v; cbn; intros Hty; done. Qed.

Lemma validateConfig_null (w : world) :
  validateConfig VNull w = (Throw TypeError, w).
Proof. reflexivity. Qed.

Lemma validateConfig_unallocated (w : world) (l : loc) :
  heap w !! l = None -> validateConfig (VObject l) w = (Unmodelled, w).
Proof.
  intros Hl. unfold validateConfig, ifReturn, notC, call, fmap, bind, getProp.
  cbn. by rewrite Hl.
Qed.

(** The verdicts in terms of the checks. *)
Lemma accepted_iff (o : gmap string value) : accepted o <-> accepts o = true.
Proof.
  split.
  - intros H.
    specialize (H (World {[ 1%positive := o ]} []) 1%positive (lookup_singleton_eq _ _)).
    rewrite (validateConfig_object _ _ o) in H by apply lookup_singleton_eq.
    congruence.
  - intros H w l Ho. by rewrite (validateConfig_object w l o Ho), H.
Qed.

Lemma rejected_iff (o : gmap string value) : rejected o <-> accepts o = false.
Proof.
  split.
  - intros H.
    specialize (H (World {[ 1%positive := o ]} []) 1%positive (lookup_singleton_eq _ _)).
    rewrite (validateConfig_object _ _ o) in H by apply lookup_singleton_eq.
    congruence.
  - intros H w l Ho. by rewrite (validateConfig_object w l o Ho), H.
Qed.

(** One check that fires is enough to reject; acceptance means none does.
    The checks are numbered from 0 in the order of the source. *)
Lemma accepts_violation (o : gmap string value) (i : nat) :
  violations o !! i = Some true -> accepts o = false.
Proof.
  unfold accepts. generalize (violations o) as cs. intros cs. revert i.
  induction cs as [|c cs IH]; intros [|i] Hi; try done; cbn in *.
  - by injection Hi as ->.
  - rewrite (IH i Hi). apply andb_false_r.
Qed.

Lemma accepts_no_violation (o : gmap string value) (i : nat) (c : bool) :
  accepts o = true -> violations o !! i = Some c -> c = false.
Proof.
  intros Hacc Hi. destruct c; [|done].
  apply accepts_violation in Hi. congruence.
Qed.

(** Objects that pass the same checks get the same verdict. *)
Lemma sameVerdict_accepts (o1 o2 : gmap string value) :
  accepts o1 = accepts o2 -> sameVerdict o1 o2.
Proof.
  intros Heq w1 w2 l1 l2 H1 H2.
  by rewrite (validateConfig_object w1 l1 o1 H1), (validateConfig_object w2 l2 o2 H2), Heq.
Qed.

End Verdict.

(** ** Reading the fields of an updated object *)

Lemma field_insert (o : gmap string value) (k k' : string) (v : value) :
  field (<[k := v]> o) k' = if String.eqb k k' then v else field o k'.
Proof.
  unfold field. destruct (String.eqb_spec k k') as [->|Hne].
  - by rewrite lookup_insert_eq.
  - by rewrite lookup_insert_ne.
Qed.

Lemma field_delete (o : gmap string value) (k k' : string) :
  field (delete k o) k' = if String.eqb k k' then VUndefined else field o k'.
Proof.
  unfold field. destruct (String.eqb_spec k k') as [->|Hne].
  - by rewrite lookup_delete_eq.
  - by rewrite lookup_delete_ne.
Qed.

Lemma field_empty (k : string) : field ∅ k = VUndefined.
Proof. unfold field. by rewrite lookup_empty. Qed.

Lemma field_sameExcept (name : string) (o1 o2 : gmap string value) (k : string) :
  sameExcept name o1 o2 -> String.eqb k name = false -> field o1 k = field o2 k.
Proof.
  intros Hsame Hk. unfold field. rewrite (Hsame k); [done|].
  by apply String.eqb_neq.
Qed.

(** ** The pattern of the pin *)

Lemma digitsExactly_spec (n : nat) (s : string) :
  digitsExactly n s
  = Nat.eqb (String.length s) n && forallb isDigit (String.list_ascii_of_string s).
Proof.
  revert s. induction n as [|n IH]; intros [|c s]; cbn; try done.
  rewrite IH. destruct (isDigit c); cbn; [done|].
  by rewrite andb_false_r.
Qed.

Lemma rtvPinPattern_fifteenDigits (s : string) :
  rtvPinPattern s = fifteenDigits (VString s).
Proof. apply digitsExactly_spec. Qed.

Lemma badString_VString (re : string -> bool) (s : string) :
  badString re (VString s) = toBoolean (VString s) && negb (re s).
Proof. reflexivity. Qed.


(** ** Computations that only read *)

Lemma readonly_ret {A} (a : A) : readonly (ret a).
Proof. by intros w. Qed.

Lemma readonly_bind {A B} (m : js A) (f : A -> js B) :
  readonly m -> (forall a, readonly (f a)) -> readonly (bind m f).
Proof.
  intros Hm Hf w. unfold bind. specialize (Hm w).
  destruct (m w) as [[a|e|] w']; cbn in *; subst; [apply Hf | done | done].
Qed.

Lemma readonly_getProp (v : value) (k : string) : readonly (getProp v k).
Proof. intros w. unfold getProp. destruct v; try done; by destruct (heap w !! l). Qed.

Lemma readonly_fmap {A B} (f : A -> B) (m : js A) : readonly m -> readonly (fmap f m).
Proof. intros Hm. apply readonly_bind; [done | intros; apply readonly_ret]. Qed.

Lemma readonly_andC (a b : js bool) : readonly a -> readonly b -> readonly (andC a b).
Proof.
  intros Ha Hb. apply readonly_bind; [done|]. intros []; [done | apply readonly_ret].
Qed.

Lemma readonly_orC (a b : js bool) : readonly a -> readonly b -> readonly (orC a b).
Proof.
  intros Ha Hb. apply readonly_bind; [done|]. intros []; [apply readonly_ret | done].
Qed.

Lemma readonly_ltC (e : js value) (c : float) : readonly e -> readonly (ltC e c).
Proof. intros He. apply readonly_bind; [done|]. by intros []. Qed.

Lemma readonly_gtC (e : js value) (c : float) : readonly e -> readonly (gtC e c).
Proof. intros He. apply readonly_bind; [done|]. by intros []. Qed.

Lemma readonly_matches (e : js value) (re : string -> bool) :
  readonly e -> readonly (matches e re).
Proof. intros He. apply readonly_bind; [done|]. by intros []. Qed.

Lemma readonly_ifReturn {A} (c : js bool) (r : A) (rest : js A) :
  readonly c -> readonly rest -> readonly (ifReturn c r rest).
Proof.
  intros Hc Hr. apply readonly_bind; [done|]. intros []; [apply readonly_ret | done].
Qed.

Lemma readonly_truthy (e : js value) : readonly e -> readonly (truthy e).
Proof. apply readonly_fmap. Qed.

Lemma readonly_typeOf (e : js value) : readonly e -> readonly (typeOf e).
Proof. apply readonly_fmap. Qed.

Lemma readonly_strictNe (a : js string) (lit : string) :
  readonly a -> readonly (strictNe a lit).
Proof. apply readonly_fmap. Qed.

Lemma readonly_notC (c : js bool) : readonly c -> readonly (notC c).
Proof. apply readonly_fmap. Qed.

Lemma readonly_call (p : value -> bool) (e : js value) :
  readonly e -> readonly (call p e).
Proof. apply readonly_fmap. Qed.

Create HintDb readonly.
#[local] Hint Resolve readonly_ret readonly_getProp readonly_truthy readonly_typeOf
  readonly_strictNe readonly_notC readonly_call readonly_andC readonly_orC
  readonly_ltC readonly_gtC readonly_matches readonly_ifReturn : readonly.

(** The language's two effects do change the world: [readonly] tells them
    from reads. *)
Lemma setProp_not_readonly :
  ~ readonly (setProp (VObject 1%positive) "useOpaqueOrigin" (VBool false)).
Proof. intros H. specialize (H minimalWorld). vm_compute in H. discriminate H. Qed.

Lemma consoleLog_not_readonly : ~ readonly (consoleLog [VString "invalid config"]).
Proof. intros H. specialize (H minimalWorld). discriminate H. Qed.

Lemma validateConfig_readonly {util : Util} (config : value) :
  readonly (validateConfig config).
Proof. unfold validateConfig. auto 30 with readonly. Qed.

(** ** Tactics for verdicts on updated objects *)

(** The pattern is used through [rtvPinPattern_fifteenDigits] from here on. *)
Opaque rtvPinPattern.

(** The checks an accepted object passes, one hypothesis each. *)
Ltac passed_checks H :=
  pose proof (accepts_no_violation _ 0 _ H eq_refl);
  pose proof (accepts_no_violation _ 1 _ H eq_refl);
  pose proof (accepts_no_violation _ 2 _ H eq_refl);
  pose proof (accepts_no_violation _ 3 _ H eq_refl);
  pose proof (accepts_no_violation _ 4 _ H eq_refl);
  pose proof (accepts_no_violation _ 5 _ H eq_refl);
  pose proof (accepts_no_violation _ 6 _ H eq_refl);
  pose proof (accepts_no_violation _ 7 _ H eq_refl);
  pose proof (accepts_no_violation _ 8 _ H eq_refl);
  pose proof (accepts_no_violation _ 9 _ H eq_refl);
  pose proof (accepts_no_violation _ 10 _ H eq_refl);
  pose proof (accepts_no_violation _ 11 _ H eq_refl);
  pose proof (accepts_no_violation _ 12 _ H eq_refl);
  pose proof (accepts_no_violation _ 13 _ H eq_refl).

(** Reads the fields of an object built by [insert] and [delete]. *)
Ltac read_fields :=
  rewrite ?field_insert, ?field_delete;
  cbn [String.eqb Ascii.eqb Bool.eqb andb];
  rewrite ?field_empty, ?badString_VString.

(** Uses what is known of the conditions. *)
Ltac rewrite_known :=
  repeat match goal with
         | H : _ = true |- _ => rewrite H
         | H : _ = false |- _ => rewrite H
         end.

Ltac use_known := rewrite_known; cbn; rewrite_known; cbn; rewrite ?andb_false_r.

(** Decides [accepts] on an updated object from the checks passed before
    the update and the values written. *)
Ltac settle := unfold accepts, violations; read_fields; use_known; try reflexivity.

(** Rejects by the check numbered [i]. *)
Ltac reject_by i :=
  apply rejected_iff, (accepts_violation _ i); cbn [violations lookup list_lookup];
  read_fields; use_known; try reflexivity.

(** ** Inputs that are not objects *)

Section NonObjects.

Context {util : Util}.

(** Every primitive other than [null], and every function, is turned down by
    the [typeof] guard. *)
Lemma validateConfig_primitive (w : world) :
  (forall x, validateConfig (VNumber x) w = (Normal false, w)) /\
  (forall s, validateConfig (VString s) w = (Normal false, w)) /\
  (forall b, validateConfig (VBool b) w = (Normal false, w)) /\
  validateConfig VUndefined w = (Normal false, w) /\
  (forall z, validateConfig (VBigInt z) w = (Normal false, w)) /\
  (forall i, validateConfig (VSymbol i) w = (Normal false, w)) /\
  (forall l, validateConfig (VFunction l) w = (Normal false, w)).
Proof. repeat split; intros; by apply validateConfig_non_object. Qed.

(** [null] is the only input on which the validator throws. *)
Lemma validateConfig_throws_iff (config : value) (w : world) (e : error) :
  (validateConfig config w).1 = Throw e <-> config = VNull.
Proof.
  split.
  - destruct config; try (by rewrite validateConfig_non_object); [done|].
    destruct (heap w !! l) as [o|] eqn:Hl.
    + by rewrite (validateConfig_object w l o).
    + by rewrite validateConfig_unallocated.
  - intros ->. by destruct e.
Qed.

(** On every input whose reference, if it is one, is allocated, the run stays
    within the modelled fragment of the language. *)
Lemma validateConfig_modelled (config : value) (w : world) :
  (forall l, config = VObject l -> is_Some (heap w !! l)) ->
  (validateConfig config w).1 <> Unmodelled.
Proof.
  intros Halloc. destruct config; try (by rewrite validateConfig_non_object); [done|].
  destruct (Halloc l eq_refl) as [o Ho]. by rewrite (validateConfig_object w l o).
Qed.

End NonObjects.

(** ** The minimal configuration *)

(** The specification's minimal object, with a relay URL and the boolean
    [useOpaqueOrigin] and nothing else, is accepted when the relay URL is a
    valid URL; with the stand-in predicates the run returns [true]. *)
Lemma minimalConfig_accepted {util : Util} :
  isValidURL (VString "https://example.com/relay") = true -> accepted minimalConfig.
Proof. intros Hrelay. apply accepted_iff. unfold minimalConfig. settle. Qed.

Example minimalConfig_run :
  @validateConfig httpsUtil (VObject 1%positive) minimalWorld = (Normal true, minimalWorld).
Proof. vm_compute. reflexivity. Qed.

(** ** The claims of the specification *)

Section Claims.

Context {util : Util}.

(** C1. The specification asks that an object whose
    [transformTemplateProxyOutput] is truthy while [templateProxyURL] is
    absent be turned down. The validator does not do so: the minimal
    configuration with [transformTemplateProxyOutput: true] added and no
    [templateProxyURL] is accepted, whenever the relay URL is a valid URL. *)
Theorem transform_flag_without_template_proxy_accepted :
  isValidURL (VString "https://example.com/relay") = true ->
  toBoolean (field (<["transformTemplateProxyOutput" := VBool true]> minimalConfig)
                   "transformTemplateProxyOutput") = true /\
  toBoolean (field (<["transformTemplateProxyOutput" := VBool true]> minimalConfig)
                   "templateProxyURL") = false /\
  accepted (<["transformTemplateProxyOutput" := VBool true]> minimalConfig).
Proof.
  intros Hrelay. split; [reflexivity|]. split; [reflexivity|].
  apply accepted_iff. unfold minimalConfig. settle.
Qed.

(** C2. The specification asks that [null] be answered with [false] and that
    no input make the validator throw. On [null] the validator throws a
    TypeError: [typeof null] is ['object'], so the guard lets it through to
    the first property read. *)
Theorem null_input_throws (w : world) :
  typeof VNull = "object" /\ validateConfig VNull w = (Throw TypeError, w).
Proof. split; reflexivity. Qed.

(** C3. Every object with a truthy [templateProxyURL] and an absent or falsy
    [xhrProxyURL] is rejected; and when ["https://example.com/tpl"] and
    ["https://example.com/xhr"] are valid URLs, an accepted object given that
    [templateProxyURL] and no [xhrProxyURL] is rejected, and adding that
    [xhrProxyURL] to it makes it accepted. *)
Theorem template_proxy_requires_xhr_proxy :
  (forall o : gmap string value,
     toBoolean (field o "templateProxyURL") = true ->
     toBoolean (field o "xhrProxyURL") = false ->
     rejected o) /\
  (forall o : gmap string value,
     isValidURL (VString "https://example.com/tpl") = true ->
     isValidURL (VString "https://example.com/xhr") = true ->
     accepted o ->
     rejected (<["templateProxyURL" := VString "https://example.com/tpl"]>
                 (delete "xhrProxyURL" o)) /\
     accepted (<["xhrProxyURL" := VString "https://example.com/xhr"]>
                 (<["templateProxyURL" := VString "https://example.com/tpl"]>
                    (delete "xhrProxyURL" o)))).
Proof.
  split.
  - intros o Htpl Hxhr. reject_by 4%nat.
  - intros o Htpl Hxhr Hacc. split.
    + reject_by 4%nat.
    + apply accepted_iff in Hacc. apply accepted_iff.
      passed_checks Hacc. settle.
Qed.

(** C4. Every object in which both [rtvPin] and [runtimeCDN] are truthy is
    rejected, also when each is well formed: for an accepted object, a pin
    of 15 digits and a non-empty valid URL, the pin alone is accepted, the
    URL alone is accepted, and the two together are rejected. *)
Theorem rtvPin_excludes_runtimeCDN :
  (forall o : gmap string value,
     toBoolean (field o "rtvPin") = true ->
     toBoolean (field o "runtimeCDN") = true ->
     rejected o) /\
  (forall (o : gmap string value) (pin cdn : string),
     accepted o ->
     fifteenDigits (VString pin) = true ->
     isValidURL (VString cdn) = true ->
     toBoolean (VString cdn) = true ->
     accepted (<["rtvPin" := VString pin]> (delete "runtimeCDN" o)) /\
     accepted (<["runtimeCDN" := VString cdn]> (delete "rtvPin" o)) /\
     rejected (<["rtvPin" := VString pin]> (<["runtimeCDN" := VString cdn]> o))).
Proof.
  split.
  - intros o Hpin Hcdn. reject_by 12%nat.
  - intros o pin cdn Hacc Hpin Hurl Hcdn.
    rewrite <- rtvPinPattern_fifteenDigits in Hpin.
    assert (toBoolean (VString pin) = true) as Hne.
    { destruct pin; [discriminate Hpin | reflexivity]. }
    apply accepted_iff in Hacc. passed_checks Hacc. repeat split.
    + apply accepted_iff. settle.
    + apply accepted_iff. settle.
    + reject_by 12%nat.
Qed.

(** C5. Every object whose [useOpaqueOrigin] is not of type boolean is
    rejected, whatever its truthiness; in particular the truthy string
    ["true"] in that field makes every object rejected. *)
Theorem useOpaqueOrigin_strictly_boolean :
  (forall o : gmap string value,
     typeof (field o "useOpaqueOrigin") <> "boolean" -> rejected o) /\
  (forall o : gmap string value,
     toBoolean (VString "true") = true /\
     rejected (<["useOpaqueOrigin" := VString "true"]> o)).
Proof.
  split.
  - intros o Hty. apply String.eqb_neq in Hty. reject_by 1%nat.
  - intros o. split; [reflexivity|]. reject_by 1%nat.
Qed.

(** C6. Every object with a truthy [rtvPin] that is not a string of exactly
    15 ASCII decimal digits is rejected; in particular a pin of five
    characters makes every object rejected; and an accepted object given a
    pin of 15 digits and no [runtimeCDN] is accepted. *)
Theorem rtvPin_fifteen_digits :
  (forall o : gmap string value,
     toBoolean (field o "rtvPin") = true ->
     fifteenDigits (field o "rtvPin") = false ->
     rejected o) /\
  (forall (o : gmap string value) (pin : string),
     String.length pin = 5 ->
     rejected (<["rtvPin" := VString pin]> o)) /\
  (forall (o : gmap string value) (pin : string),
     accepted o ->
     fifteenDigits (VString pin) = true ->
     accepted (<["rtvPin" := VString pin]> (delete "runtimeCDN" o))).
Proof.
  repeat split.
  - intros o Htruthy Hpin.
    apply rejected_iff, (accepts_violation _ 8); cbn [violations lookup list_lookup].
    unfold badString. rewrite Htruthy.
    destruct (field o "rtvPin") as [| | | | |s| | |]; try reflexivity.
    by rewrite rtvPinPattern_fifteenDigits, Hpin.
  - intros o pin Hlen.
    assert (toBoolean (VString pin) = true) as Hne by by destruct pin.
    assert (rtvPinPattern pin = false) as Hpat.
    { rewrite rtvPinPattern_fifteenDigits. cbn. by rewrite Hlen. }
    reject_by 8%nat.
  - intros o pin Hacc Hpin.
    rewrite <- rtvPinPattern_fifteenDigits in Hpin.
    assert (toBoolean (VString pin) = true) as Hne.
    { rewrite rtvPinPattern_fifteenDigits in Hpin. by destruct pin. }
    apply accepted_iff in Hacc. passed_checks Hacc.
    apply accepted_iff. settle.
Qed.

(** C7. For an accepted object, a [loadTimeout] of 10001 makes it rejected,
    one of 10000 leaves it accepted, and one of 0 leaves it accepted; and
    for each of [failOnLoadErrorAfter], [loadTimeout] and [maximumAMPSize],
    the value 0 is falsy and the validator ends on an object holding it as
    on the same object without the property. *)
Theorem timeout_bounds_and_zero_gate :
  (forall o : gmap string value,
     accepted o ->
     rejected (<["loadTimeout" := VNumber 10001]> o) /\
     accepted (<["loadTimeout" := VNumber 10000]> o) /\
     accepted (<["loadTimeout" := VNumber 0]> o)) /\
  (forall (o : gmap string value) (name : string),
     In name gatedNumbers ->
     toBoolean (VNumber 0) = false /\
     sameVerdict (<[name := VNumber 0]> o) (delete name o)).
Proof.
  split.
  - intros o Hacc. apply accepted_iff in Hacc. passed_checks Hacc. repeat split.
    + reject_by 11%nat.
    + apply accepted_iff. settle.
    + apply accepted_iff. settle.
  - intros o name Hname. split; [reflexivity|].
    apply sameVerdict_accepts.
    cbn in Hname. destruct Hname as [<-|[<-|[<-|[]]]]; settle.
Qed.

(** C8. On every input and in every world, a run of the validator leaves
    the world (the heap with the candidate object, and the console) exactly
    as it was, whether it returns [true], returns [false] or throws. *)
Theorem validateConfig_leaves_world_unchanged (config : value) (w : world) :
  (validateConfig config w).2 = w.
Proof. apply validateConfig_readonly. Qed.

(** C9. A second call on the same input, run in the world the first call
    left, ends exactly as the first; and the way a call ends depends on
    nothing but the input and, for a reference, the object it refers to: not
    on the console or on the rest of the heap. *)
Theorem validateConfig_deterministic (config : value) :
  (forall w : world,
     validateConfig config (validateConfig config w).2 = validateConfig config w) /\
  (forall w1 w2 : world,
     (forall l : loc, config = VObject l -> heap w1 !! l = heap w2 !! l) ->
     (validateConfig config w1).1 = (validateConfig config w2).1).
Proof.
  split.
  - intros w. by rewrite validateConfig_readonly.
  - intros w1 w2 Hsame.
    destruct config; try (by rewrite !validateConfig_non_object); [done|].
    specialize (Hsame l eq_refl).
    destruct (heap w1 !! l) as [o|] eqn:H1; symmetry in Hsame.
    + by rewrite (validateConfig_object w1 l o), (validateConfig_object w2 l o).
    + by rewrite !validateConfig_unallocated.
Qed.

(** C10. The property the validator reads is [processTemplateProxyOutput]:
    every object whose [templateProxyURL] is absent or falsy and whose
    [processTemplateProxyOutput] is truthy is rejected, and on two objects
    that differ at most in [transformTemplateProxyOutput] the validator ends
    the same way. *)
Theorem processTemplateProxyOutput_is_the_property_read :
  (forall o : gmap string value,
     toBoolean (field o "templateProxyURL") = false ->
     toBoolean (field o "processTemplateProxyOutput") = true ->
     rejected o) /\
  (forall o1 o2 : gmap string value,
     sameExcept "transformTemplateProxyOutput" o1 o2 ->
     sameVerdict o1 o2).
Proof.
  split.
  - intros o Htpl Hflag. reject_by 6%nat.
  - intros o1 o2 Hsame. apply sameVerdict_accepts.
    unfold accepts, violations.
    by rewrite !(fun k => field_sameExcept _ o1 o2 k Hsame) by reflexivity.
Qed.

End Claims.

(** ** The statements at concrete configurations

    Each statement with a hypothesis is applied here to configurations built
    from the minimal one, with [httpsUtil] for the imported predicates. *)

(** The configuration of C1 with the stand-in predicates. *)
Lemma transform_flag_without_template_proxy_accepted_witness :
  @isValidURL httpsUtil (VString "https://example.com/relay") = true /\
  @accepted httpsUtil (<["transformTemplateProxyOutput" := VBool true]> minimalConfig).
Proof.
  split; [reflexivity|].
  apply (@transform_flag_without_template_proxy_accepted httpsUtil). reflexivity.
Defined.

(** C3 at the minimal configuration with the two example URLs. *)
Lemma template_proxy_requires_xhr_proxy_witness :
  @rejected httpsUtil
    (<["templateProxyURL" := VString "https://example.com/tpl"]> minimalConfig) /\
  @rejected httpsUtil
    (<["templateProxyURL" := VString "https://example.com/tpl"]>
       (delete "xhrProxyURL" minimalConfig)) /\
  @accepted httpsUtil
    (<["xhrProxyURL" := VString "https://example.com/xhr"]>
       (<["templateProxyURL" := VString "https://example.com/tpl"]>
          (delete "xhrProxyURL" minimalConfig))).
Proof.
  split.
  - apply (proj1 (@template_proxy_requires_xhr_proxy httpsUtil)); vm_compute; reflexivity.
  - apply (proj2 (@template_proxy_requires_xhr_proxy httpsUtil)).
    + reflexivity.
    + reflexivity.
    + apply accepted_iff. vm_compute. reflexivity.
Defined.

(** C4 at the minimal configuration with the example pin and CDN URL. *)
Lemma rtvPin_excludes_runtimeCDN_witness :
  @rejected httpsUtil
    (<["rtvPin" := VString "123456789012345"]>
       (<["runtimeCDN" := VString "https://cdn.example.com"]> minimalConfig)) /\
  @accepted httpsUtil
    (<["rtvPin" := VString "123456789012345"]> (delete "runtimeCDN" minimalConfig)) /\
  @accepted httpsUtil
    (<["runtimeCDN" := VString "https://cdn.example.com"]> (delete "rtvPin" minimalConfig)) /\
  @rejected httpsUtil
    (<["rtvPin" := VString "123456789012345"]>
       (<["runtimeCDN" := VString "https://cdn.example.com"]> minimalConfig)).
Proof.
  split.
  - apply (proj1 (@rtvPin_excludes_runtimeCDN httpsUtil)); vm_compute; reflexivity.
  - apply (proj2 (@rtvPin_excludes_runtimeCDN httpsUtil)).
    + apply accepted_iff. vm_compute. reflexivity.
    + vm_compute. reflexivity.
    + reflexivity.
    + reflexivity.
Defined.

(** C5 at the minimal configuration with [useOpaqueOrigin: "true"]. *)
Lemma useOpaqueOrigin_strictly_boolean_witness :
  typeof (field (<["useOpaqueOrigin" := VString "true"]> minimalConfig) "useOpaqueOrigin")
    <> "boolean" /\
  @rejected httpsUtil (<["useOpaqueOrigin" := VString "true"]> minimalConfig).
Proof.
  assert (typeof (field (<["useOpaqueOrigin" := VString "true"]> minimalConfig)
                        "useOpaqueOrigin") <> "boolean") as Hty.
  { vm_compute. discriminate. }
  split; [exact Hty|].
  exact (proj1 (@useOpaqueOrigin_strictly_boolean httpsUtil) _ Hty).
Defined.

(** C6 with a number for a pin, with the pin ["12345"], and with the pin
    ["123456789012345"]. *)
Lemma rtvPin_fifteen_digits_witness :
  @rejected httpsUtil (<["rtvPin" := VNumber 123456789012345]> minimalConfig) /\
  @rejected httpsUtil (<["rtvPin" := VString "12345"]> minimalConfig) /\
  @accepted httpsUtil
    (<["rtvPin" := VString "123456789012345"]> (delete "runtimeCDN" minimalConfig)).
Proof.
  pose proof (@rtvPin_fifteen_digits httpsUtil) as (Hformat & Hfive & Hpin).
  split; [|split].
  - apply Hformat; vm_compute; reflexivity.
  - apply Hfive. reflexivity.
  - apply Hpin.
    + apply accepted_iff. vm_compute. reflexivity.
    + vm_compute. reflexivity.
Defined.

(** C7 at the minimal configuration, and for [maximumAMPSize: 0]. *)
Lemma timeout_bounds_and_zero_gate_witness :
  (@rejected httpsUtil (<["loadTimeout" := VNumber 10001]> minimalConfig) /\
   @accepted httpsUtil (<["loadTimeout" := VNumber 10000]> minimalConfig) /\
   @accepted httpsUtil (<["loadTimeout" := VNumber 0]> minimalConfig)) /\
  @sameVerdict httpsUtil
    (<["maximumAMPSize" := VNumber 0]> minimalConfig)
    (delete "maximumAMPSize" minimalConfig).
Proof.
  split.
  - apply (proj1 (@timeout_bounds_and_zero_gate httpsUtil)).
    apply accepted_iff. vm_compute. reflexivity.
  - apply (proj2 (@timeout_bounds_and_zero_gate httpsUtil)).
    right. right. left. reflexivity.
Defined.

(** C9 for the minimal configuration in two worlds that differ around it. *)
Lemma validateConfig_deterministic_witness :
  (@validateConfig httpsUtil (VObject 1%positive) minimalWorld).1
  = (@validateConfig httpsUtil (VObject 1%positive) busyWorld).1.
Proof.
  apply (proj2 (@validateConfig_deterministic httpsUtil (VObject 1%positive))).
  intros l Hl. injection Hl as <-. vm_compute. reflexivity.
Defined.

(** C10 at the minimal configuration with either flag set. *)
Lemma processTemplateProxyOutput_is_the_property_read_witness :
  @rejected httpsUtil (<["processTemplateProxyOutput" := VBool true]> minimalConfig) /\
  @sameVerdict httpsUtil
    minimalConfig (<["transformTemplateProxyOutput" := VBool true]> minimalConfig).
Proof.
  split.
  - apply (proj1 (@processTemplateProxyOutput_is_the_property_read httpsUtil));
      vm_compute; reflexivity.
  - apply (proj2 (@processTemplateProxyOutput_is_the_property_read httpsUtil)).
    intros k Hk. symmetry. by apply lookup_insert_ne.
Defined.

(** ** Numbers that fail a range check are truthy *)

(** A float compared with another by [<] is not NaN, so it equals itself. *)
Lemma SFltb_not_nan (sx sy : SpecFloat.spec_float) :
  SpecFloat.SFltb sx sy = true \/ SpecFloat.SFltb sy sx = true ->
  SpecFloat.SFeqb sx sx = true.
Proof.
  unfold SpecFloat.SFltb, SpecFloat.SFeqb.
  destruct sx as [s| s | |s m e]; cbn.
  - done.
  - by destruct s.
  - intros [H|H]; [done | by destruct sy].
  - intros _. destruct s; rewrite Z.compare_refl, Pos.compare_cont_refl; done.
Qed.

Lemma negative_truthy (x : float) :
  PrimFloat.ltb x 0 = true -> toBoolean (VNumber x) = true.
Proof.
  unfold toBoolean. rewrite !FloatAxioms.ltb_spec, !FloatAxioms.eqb_spec.
  change (FloatOps.Prim2SF 0) with (SpecFloat.S754_zero false).
  intros H. rewrite (SFltb_not_nan _ (SpecFloat.S754_zero false)) by by left.
  revert H. unfold SpecFloat.SFltb, SpecFloat.SFeqb.
  destruct (FloatOps.Prim2SF x) as [s| s | |s m e]; cbn; try done; by destruct s.
Qed.

Lemma above_10000_truthy (x : float) :
  PrimFloat.ltb 10000 x = true -> toBoolean (VNumber x) = true.
Proof.
  unfold toBoolean. rewrite !FloatAxioms.ltb_spec, !FloatAxioms.eqb_spec.
  change (FloatOps.Prim2SF 0) with (SpecFloat.S754_zero false).
  intros H. rewrite (SFltb_not_nan _ (FloatOps.Prim2SF 10000)) by by right.
  revert H.
  let v := eval vm_compute in (FloatOps.Prim2SF 10000) in
    change (FloatOps.Prim2SF 10000) with v.
  unfold SpecFloat.SFltb, SpecFloat.SFeqb.
  destruct (FloatOps.Prim2SF x) as [s| s | |s m e]; cbn; try done; by destruct s.
Qed.

(** The two range checks on a number, without the truthiness test. *)
Lemma badNumber_outsideTimeout (x : float) :
  badNumber outsideTimeout (VNumber x) = outsideTimeout x.
Proof.
  unfold badNumber, outsideTimeout.
  destruct (PrimFloat.ltb x 0) eqn:Hlt.
  { by rewrite (negative_truthy x Hlt). }
  destruct (PrimFloat.ltb 10000 x) eqn:Hgt.
  { by rewrite (above_10000_truthy x Hgt). }
  cbn. apply andb_false_r.
Qed.

Lemma badNumber_negative (x : float) :
  badNumber negative (VNumber x) = negative x.
Proof.
  unfold badNumber, negative.
  destruct (PrimFloat.ltb x 0) eqn:Hlt.
  { by rewrite (negative_truthy x Hlt). }
  apply andb_false_r.
Qed.

Lemma typeof_boolean (v : value) :
  String.eqb (typeof v) "boolean" = true -> exists b, v = VBool b.
Proof. destruct v; cbn; try discriminate. eauto. Qed.

(** ** What a passed check says of a truthy value *)

Lemma gate_passed (a b : bool) : a && negb b = false -> a = true -> b = true.
Proof. by destruct a, b. Qed.

Lemma badNumber_passed (bad : float -> bool) (v : value) :
  badNumber bad v = false -> toBoolean v = true ->
  exists x : float, v = VNumber x /\ bad x = false.
Proof.
  unfold badNumber. intros H Hv. rewrite Hv in H.
  destruct v; try discriminate H. eauto.
Qed.

Lemma badString_passed (re : string -> bool) (v : value) :
  badString re v = false -> toBoolean v = true ->
  exists s : string, v = VString s /\ re s = true.
Proof.
  unfold badString. intros H Hv. rewrite Hv in H.
  destruct v; try discriminate H. apply negb_false_iff in H. eauto.
Qed.

(** ** Further properties of the validator *)

Section Further.

Context {util : Util}.

(** X1. On an object the validator never throws and the order of its checks
    does not matter: the object is accepted exactly when none of the
    fourteen conditions holds, and rejected exactly when one does. *)
Theorem verdict_by_checks (o : gmap string value) :
  (accepted o <-> forall c : bool, In c (violations o) -> c = false) /\
  (rejected o <-> In true (violations o)).
Proof.
  rewrite accepted_iff, rejected_iff. unfold accepts.
  generalize (violations o) as cs. intros cs. split.
  - rewrite forallb_forall. split; intros H c Hc.
    + by apply negb_true_iff, H.
    + by apply negb_true_iff, H.
  - induction cs as [|c cs IH]; cbn; [by split|].
    destruct c; cbn.
    + split; [by left | done].
    + rewrite IH. split; [by right | by intros [|]].
Qed.

(** X2. The verdict depends on the twelve properties the validator reads and
    on nothing else: two objects that agree on them end the same way, so
    setting any other property ([skipPreprocessingModules],
    [strictCSSSanitization], [developmentMode], ...) to any value changes
    nothing. *)
Theorem verdict_depends_on_read_properties :
  (forall o1 o2 : gmap string value, sameOn readKeys o1 o2 -> sameVerdict o1 o2) /\
  (forall (o : gmap string value) (k : string) (v : value),
     ~ In k readKeys -> sameVerdict (<[k := v]> o) o).
Proof.
  assert (forall o1 o2 : gmap string value,
            sameOn readKeys o1 o2 -> sameVerdict o1 o2) as Hsame.
  { intros o1 o2 H. apply sameVerdict_accepts. unfold accepts, violations.
    rewrite !(fun k Hk => H k Hk : field o1 k = field o2 k) by (cbn; tauto).
    reflexivity. }
  split; [exact Hsame|].
  intros o k v Hk. apply Hsame. intros k' Hk'. rewrite field_insert.
  destruct (String.eqb_spec k k') as [->|_]; [contradiction | reflexivity].
Qed.

(** X3. [null] apart, every input makes the validator return a boolean and
    leave the world as it was: nothing but [null] makes it throw. (A
    reference is to an object of the heap.) *)
Theorem validateConfig_returns_unless_null (config : value) (w : world) :
  config <> VNull ->
  (forall l : loc, config = VObject l -> is_Some (heap w !! l)) ->
  exists b : bool, validateConfig config w = (Normal b, w).
Proof.
  intros Hnull Halloc.
  destruct config as [| | | | | | |l|]; try done;
    try (exists false; by apply validateConfig_non_object).
  destruct (Halloc l eq_refl) as [o Ho].
  exists (accepts o). by apply validateConfig_object.
Qed.

(** X4. What a [true] result lets the caller rely on: the relay URL is
    valid and [useOpaqueOrigin] is a boolean; every truthy URL property
    passed its predicate; a truthy [templateProxyURL] comes with a truthy
    [xhrProxyURL], and a truthy [processTemplateProxyOutput] with a truthy
    [templateProxyURL]; a truthy [rtvPin] is 15 digits and excludes a truthy
    [runtimeCDN]; a truthy timeout is a number neither below 0 nor above
    10000, and a truthy [maximumAMPSize] a number not below 0. *)
Theorem accepted_guarantees (o : gmap string value) :
  accepted o ->
  isValidURL (field o "relayPageURL") = true /\
  (exists b : bool, field o "useOpaqueOrigin" = VBool b) /\
  (toBoolean (field o "imageProxyURL") = true ->
   isValidURLWithPlaceholder (field o "imageProxyURL") = true) /\
  (toBoolean (field o "xhrProxyURL") = true ->
   isValidURL (field o "xhrProxyURL") = true) /\
  (toBoolean (field o "templateProxyURL") = true ->
   isValidURL (field o "templateProxyURL") = true /\
   toBoolean (field o "xhrProxyURL") = true) /\
  (toBoolean (field o "processTemplateProxyOutput") = true ->
   toBoolean (field o "templateProxyURL") = true) /\
  (toBoolean (field o "linkRedirectURL") = true ->
   isValidURLWithPlaceholder (field o "linkRedirectURL") = true) /\
  (toBoolean (field o "rtvPin") = true ->
   fifteenDigits (field o "rtvPin") = true /\
   toBoolean (field o "runtimeCDN") = false) /\
  (toBoolean (field o "runtimeCDN") = true ->
   isValidURL (field o "runtimeCDN") = true) /\
  (forall k : string,
     In k timeoutKeys -> toBoolean (field o k) = true ->
     exists x : float,
       field o k = VNumber x /\
       PrimFloat.ltb x 0 = false /\ PrimFloat.ltb 10000 x = false) /\
  (toBoolean (field o "maximumAMPSize") = true ->
   exists x : float,
     field o "maximumAMPSize" = VNumber x /\ PrimFloat.ltb x 0 = false).
Proof.
  intros Hacc. apply accepted_iff in Hacc.
  pose proof (accepts_no_violation _ 0 _ Hacc eq_refl) as Hrelay.
  pose proof (accepts_no_violation _ 1 _ Hacc eq_refl) as Hopaque.
  pose proof (accepts_no_violation _ 2 _ Hacc eq_refl) as Himage.
  pose proof (accepts_no_violation _ 3 _ Hacc eq_refl) as Hxhr.
  pose proof (accepts_no_violation _ 4 _ Hacc eq_refl) as Hneeds.
  pose proof (accepts_no_violation _ 5 _ Hacc eq_refl) as Htpl.
  pose proof (accepts_no_violation _ 6 _ Hacc eq_refl) as Hflag.
  pose proof (accepts_no_violation _ 7 _ Hacc eq_refl) as Hlink.
  pose proof (accepts_no_violation _ 8 _ Hacc eq_refl) as Hpin.
  pose proof (accepts_no_violation _ 9 _ Hacc eq_refl) as Hcdn.
  pose proof (accepts_no_violation _ 10 _ Hacc eq_refl) as Hfail.
  pose proof (accepts_no_violation _ 11 _ Hacc eq_refl) as Hload.
  pose proof (accepts_no_violation _ 12 _ Hacc eq_refl) as Hexcl.
  pose proof (accepts_no_violation _ 13 _ Hacc eq_refl) as Hsize.
  repeat match goal with |- _ /\ _ => split end.
  - by apply negb_false_iff.
  - by apply typeof_boolean, negb_false_iff.
  - exact (gate_passed _ _ Himage).
  - exact (gate_passed _ _ Hxhr).
  - intros Ht. split; [exact (gate_passed _ _ Htpl Ht)|].
    rewrite Ht in Hneeds. by destruct (toBoolean (field o "xhrProxyURL")).
  - intros Hf. rewrite Hf in Hflag.
    by destruct (toBoolean (field o "templateProxyURL")).
  - exact (gate_passed _ _ Hlink).
  - intros Hp. split.
    + destruct (badString_passed _ _ Hpin Hp) as (s & Hs & Hre).
      by rewrite Hs, <- rtvPinPattern_fifteenDigits.
    + by rewrite Hp in Hexcl.
  - exact (gate_passed _ _ Hcdn).
  - intros k Hk Ht. cbn in Hk. destruct Hk as [<-|[<-|[]]].
    + destruct (badNumber_passed _ _ Hfail Ht) as (x & -> & [? ?]%orb_false_elim).
      by exists x.
    + destruct (badNumber_passed _ _ Hload Ht) as (x & -> & [? ?]%orb_false_elim).
      by exists x.
  - intros Ht. destruct (badNumber_passed _ _ Hsize Ht) as (x & -> & ?). by exists x.
Qed.

(** X5. For each property whose uses are all behind a truthiness test, any
    falsy value ([0], [NaN], [""], [false], [null], [undefined]) is as good
    as no value: the validator ends on the object holding it as on the
    object without the property, whatever type [Config] declares for it. *)
Theorem falsy_is_absent (o : gmap string value) (k : string) (v : value) :
  In k gatedKeys ->
  toBoolean v = false ->
  sameVerdict (<[k := v]> o) (delete k o).
Proof.
  intros Hk Hv. apply sameVerdict_accepts. cbn in Hk.
  destruct Hk as [<-|[<-|[<-|[<-|[<-|[<-|[<-|[<-|[<-|[<-|[]]]]]]]]]]];
    unfold accepts, violations, badString, badNumber; read_fields;
    rewrite ?Hv; cbn; reflexivity.
Qed.

(** X6. On an accepted object, a number written to [failOnLoadErrorAfter]
    or [loadTimeout] keeps the object accepted exactly when it is neither
    below 0 nor above 10000 in the IEEE order: NaN, both zeros and fractions
    pass, the infinities do not. *)
Theorem timeout_range_exact (o : gmap string value) (k : string) (x : float) :
  In k timeoutKeys ->
  accepted o ->
  (accepted (<[k := VNumber x]> o) <->
   PrimFloat.ltb x 0 = false /\ PrimFloat.ltb 10000 x = false).
Proof.
  intros Hk Hacc. apply accepted_iff in Hacc. passed_checks Hacc.
  rewrite accepted_iff. cbn in Hk.
  destruct Hk as [<-|[<-|[]]];
    unfold accepts, violations; read_fields; rewrite badNumber_outsideTimeout;
    rewrite_known; cbn [forallb negb andb]; unfold outsideTimeout;
    rewrite ?andb_true_r, negb_true_iff; apply orb_false_iff.
Qed.

(** X7. On an accepted object, a number written to [maximumAMPSize] keeps the
    object accepted exactly when it is not below 0: there is no upper bound,
    and NaN and +infinity pass. *)
Theorem maximumAMPSize_only_nonnegative (o : gmap string value) (x : float) :
  accepted o ->
  (accepted (<["maximumAMPSize" := VNumber x]> o) <-> PrimFloat.ltb x 0 = false).
Proof.
  intros Hacc. apply accepted_iff in Hacc. passed_checks Hacc.
  rewrite accepted_iff.
  unfold accepts, violations; read_fields; rewrite badNumber_negative;
    rewrite_known; cbn [forallb negb andb]; unfold negative.
  by rewrite ?andb_true_r, negb_true_iff.
Qed.

(** X8. A truthy value that is not of type number in one of the three
    numeric properties makes every object rejected: a numeric string such
    as ["5000"] or the boolean [true] is not coerced to a number. *)
Theorem truthy_non_number_rejected (o : gmap string value) (k : string) (v : value) :
  In k gatedNumbers ->
  typeof v <> "number" ->
  toBoolean v = true ->
  rejected (<[k := v]> o).
Proof.
  intros Hk Hty Hv.
  assert (forall bad, badNumber bad v = true) as Hbad.
  { intros bad. unfold badNumber. rewrite Hv. by destruct v. }
  cbn in Hk. destruct Hk as [<-|[<-|[<-|[]]]].
  - apply rejected_iff, (accepts_violation _ 10); cbn [violations lookup list_lookup].
    read_fields. by rewrite Hbad.
  - apply rejected_iff, (accepts_violation _ 11); cbn [violations lookup list_lookup].
    read_fields. by rewrite Hbad.
  - apply rejected_iff, (accepts_violation _ 13); cbn [violations lookup list_lookup].
    read_fields. by rewrite Hbad.
Qed.

(** X9. On an accepted object, a value written to [imageProxyURL] or
    [linkRedirectURL] keeps the object accepted exactly when it is falsy or
    passes [isValidURLWithPlaceholder]; no other property and not
    [isValidURL] has a say. *)
Theorem placeholder_fields_exact (o : gmap string value) (k : string) (v : value) :
  In k placeholderKeys ->
  accepted o ->
  (accepted (<[k := v]> o) <->
   toBoolean v = false \/ isValidURLWithPlaceholder v = true).
Proof.
  intros Hk Hacc. apply accepted_iff in Hacc. passed_checks Hacc.
  rewrite accepted_iff. cbn in Hk.
  destruct Hk as [<-|[<-|[]]];
    unfold accepts, violations; read_fields; rewrite_known;
    cbn [forallb negb andb]; rewrite ?andb_true_r;
    destruct (toBoolean v), (isValidURLWithPlaceholder v); cbn; intuition congruence.
Qed.

(** X10. Removing a property from an accepted object leaves it accepted,
    for every property that no other check asks for; removing
    [xhrProxyURL] does when [templateProxyURL] is falsy, and removing
    [templateProxyURL] when [processTemplateProxyOutput] is falsy. *)
Theorem dropping_optional_properties (o : gmap string value) :
  accepted o ->
  (forall k : string, In k droppableKeys -> accepted (delete k o)) /\
  (toBoolean (field o "templateProxyURL") = false ->
   accepted (delete "xhrProxyURL" o)) /\
  (toBoolean (field o "processTemplateProxyOutput") = false ->
   accepted (delete "templateProxyURL" o)).
Proof.
  intros Hacc. apply accepted_iff in Hacc. passed_checks Hacc. repeat split.
  - intros k Hk. apply accepted_iff. cbn in Hk.
    destruct Hk as [<-|[<-|[<-|[<-|[<-|[<-|[<-|[<-|[]]]]]]]]]; settle.
  - intros Htpl. apply accepted_iff.
    match goal with
    | H : negb (toBoolean (field o "templateProxyURL")) && _ = false |- _ =>
        rewrite Htpl in H; cbn in H
    end.
    settle.
  - intros Hflag. apply accepted_iff. settle.
Qed.

End Further.

(** ** The further properties at concrete configurations *)

(** The full configuration is accepted with the stand-in predicates. *)
Lemma fullConfig_accepted : @accepted httpsUtil fullConfig.
Proof. apply accepted_iff. vm_compute. reflexivity. Qed.

(** X2 for the full configuration with [developmentMode] switched, and for
    the minimal one given a list of modules to skip. *)
Lemma verdict_depends_on_read_properties_witness :
  @sameVerdict httpsUtil fullConfig (<["developmentMode" := VBool true]> fullConfig) /\
  @sameVerdict httpsUtil
    (<["skipPreprocessingModules" := VObject 2%positive]> minimalConfig) minimalConfig.
Proof.
  split.
  - apply (proj1 (@verdict_depends_on_read_properties httpsUtil)).
    intros k Hk. cbn in Hk.
    repeat (destruct Hk as [<-|Hk]; [vm_compute; reflexivity|]). destruct Hk.
  - apply (proj2 (@verdict_depends_on_read_properties httpsUtil)).
    cbn. intros Hk.
    repeat (destruct Hk as [Hk|Hk]; [discriminate Hk|]). destruct Hk.
Defined.

(** X3 for a reference to the minimal configuration. *)
Lemma validateConfig_returns_unless_null_witness :
  exists b : bool,
    @validateConfig httpsUtil (VObject 1%positive) minimalWorld = (Normal b, minimalWorld).
Proof.
  apply (@validateConfig_returns_unless_null httpsUtil).
  - discriminate.
  - intros l Hl. injection Hl as <-. eexists. vm_compute. reflexivity.
Defined.

(** X4 at the full configuration: its pin, its proxies and its timeout. *)
Lemma accepted_guarantees_witness :
  fifteenDigits (field fullConfig "rtvPin") = true /\
  toBoolean (field fullConfig "runtimeCDN") = false /\
  toBoolean (field fullConfig "xhrProxyURL") = true /\
  (exists x : float,
     field fullConfig "loadTimeout" = VNumber x /\
     PrimFloat.ltb x 0 = false /\ PrimFloat.ltb 10000 x = false).
Proof.
  destruct (@accepted_guarantees httpsUtil fullConfig fullConfig_accepted)
    as (_ & _ & _ & _ & Htpl & _ & _ & Hpin & _ & Htime & _).
  destruct Hpin as [Hdigits Hcdn]; [vm_compute; reflexivity|].
  destruct Htpl as [_ Hxhr]; [vm_compute; reflexivity|].
  repeat split; try assumption.
  apply Htime; [right; left; reflexivity | vm_compute; reflexivity].
Defined.

(** X5 for [rtvPin: false] in the full configuration. *)
Lemma falsy_is_absent_witness :
  @sameVerdict httpsUtil (<["rtvPin" := VBool false]> fullConfig) (delete "rtvPin" fullConfig).
Proof.
  apply (@falsy_is_absent httpsUtil).
  - cbn. tauto.
  - reflexivity.
Defined.

(** X6 for [loadTimeout: NaN] in the full configuration. *)
Lemma timeout_range_exact_witness :
  @accepted httpsUtil (<["loadTimeout" := VNumber PrimFloat.nan]> fullConfig).
Proof.
  apply (@timeout_range_exact httpsUtil fullConfig "loadTimeout" PrimFloat.nan).
  - right. left. reflexivity.
  - exact fullConfig_accepted.
  - split; reflexivity.
Defined.

(** X7 for [maximumAMPSize: Infinity] in the full configuration. *)
Lemma maximumAMPSize_only_nonnegative_witness :
  @accepted httpsUtil (<["maximumAMPSize" := VNumber PrimFloat.infinity]> fullConfig).
Proof.
  apply (@maximumAMPSize_only_nonnegative httpsUtil fullConfig PrimFloat.infinity).
  - exact fullConfig_accepted.
  - reflexivity.
Defined.

(** X8 for [loadTimeout: "5000"] in the full configuration. *)
Lemma truthy_non_number_rejected_witness :
  @rejected httpsUtil (<["loadTimeout" := VString "5000"]> fullConfig).
Proof.
  apply (@truthy_non_number_rejected httpsUtil).
  - right. left. reflexivity.
  - vm_compute. discriminate.
  - reflexivity.
Defined.

(** X9 for an [imageProxyURL] that is not a URL, in the full configuration:
    it is not accepted. *)
Lemma placeholder_fields_exact_witness :
  ~ @accepted httpsUtil (<["imageProxyURL" := VString "//example.com/image"]> fullConfig).
Proof.
  intros Hacc.
  apply (@placeholder_fields_exact httpsUtil fullConfig "imageProxyURL") in Hacc.
  - destruct Hacc as [H|H]; vm_compute in H; discriminate H.
  - left. reflexivity.
  - exact fullConfig_accepted.
Defined.

(** X10 for the full configuration without its pin. *)
Lemma dropping_optional_properties_witness :
  @accepted httpsUtil (delete "rtvPin" fullConfig).
Proof.
  apply (proj1 (@dropping_optional_properties httpsUtil fullConfig fullConfig_accepted)).
  cbn. tauto.
Defined.
